(** * VL53L5cx: a configuration-and-polling facade over the vendor ULD

    Shallow embedding of [src/VL53L5cx.cpp].  The facade object owns a
    driver handle [_dev] and a result frame [_results]; every method is a
    computation over the object, the sensor hardware and the log of the
    driver calls issued so far.  [Debugger::reportForever] never returns:
    a computation that reaches it ends in [Fatal] and nothing after it
    runs. *)

From Stdlib Require Import ZArith List String Ascii Bool Lia.
Import ListNotations.
Open Scope Z_scope.

Set Implicit Arguments.

(** ** Machine integers

    Values of the C++ integer types are integers of [Z]; a narrowing
    conversion is written out. *)

Definition to_uint8 (z : Z) : Z := z mod 256.

Definition is_uint8 (z : Z) : Prop := 0 <= z < 256.

(** A C array read: [None] outside the array, where the C++ is undefined. *)
Definition array_get (a : list Z) (i : Z) : option Z :=
  if i <? 0 then None else nth_error a (Z.to_nat i).

(** ** Enumerations *)

Inductive resolution_t := RESOLUTION_4X4 | RESOLUTION_8X8.
Inductive target_order_t := TARGET_ORDER_STRONGEST | TARGET_ORDER_CLOSEST.

(** The vendor's macros, kept symbolic. *)
Inductive vl_resolution := VL53L5CX_RESOLUTION_4X4 | VL53L5CX_RESOLUTION_8X8.
Inductive vl_target_order :=
  VL53L5CX_TARGET_ORDER_STRONGEST | VL53L5CX_TARGET_ORDER_CLOSEST.
Inductive vl_ranging_mode :=
  VL53L5CX_RANGING_MODE_CONTINUOUS | VL53L5CX_RANGING_MODE_AUTONOMOUS.

(** Modelled from the spec: the number of zones of a grid (the vendor
    header with the macros' values is not part of the sources): 4x4 or 8x8. *)
Definition zones (r : resolution_t) : Z :=
  match r with RESOLUTION_4X4 => 16 | RESOLUTION_8X8 => 64 end.

(** ** The result frame

    [VL53L5CX_ResultsData] is declared by the vendor header; the fields the
    facade reads are arrays, per zone or per target of a zone.  An element
    is kept as the integer the driver stored. *)
Record VL53L5CX_ResultsData := mkResults {
  ambient_per_spad : list Z;
  nb_target_detected : list Z;
  nb_spads_enabled : list Z;
  signal_per_spad : list Z;
  range_sigma_mm : list Z;
  distance_mm : list Z;
  target_status : list Z
}.

(** ** Diagnostics *)

Inductive fmt_arg := ArgNum (n : Z) | ArgStr (s : string).

Inductive outcome (A : Type) :=
| Ok (a : A)
| Fatal (fmt : string) (args : list fmt_arg).
Arguments Ok {A} a.
Arguments Fatal {A} fmt args.

Definition is_fatal {A} (o : outcome A) : bool :=
  match o with Ok _ => false | Fatal _ _ => true end.

(** ** Computations that may halt *)

Definition M (S A : Type) : Type := S -> outcome A * S.

Definition ret {S A} (a : A) : M S A := fun s => (Ok a, s).

Definition bind {S A B} (m : M S A) (k : A -> M S B) : M S B :=
  fun s =>
    match m s with
    | (Ok a, s') => k a s'
    | (Fatal f args, s') => (Fatal f args, s')
    end.

(** Modelled from the spec: [Debugger::reportForever] ([Debugger.hpp] is not
    part of the sources) takes a format string and its arguments, reports
    the message and halts for good. *)
Definition reportForever {S A} (fmt : string) (args : list fmt_arg) : M S A :=
  fun s => (Fatal fmt args, s).

Declare Scope facade_scope.
Delimit Scope facade_scope with facade.

Notation "x <- m ;; k" := (bind m (fun x => k))
  (at level 100, m at next level, right associativity) : facade_scope.
Notation "' pat <- m ;; k" := (bind m (fun x => match x with pat => k end))
  (at level 100, pat pattern, m at next level, right associativity)
  : facade_scope.
Notation "m ;; k" := (bind m (fun _ => k))
  (at level 100, right associativity) : facade_scope.

Open Scope facade_scope.

(** ** The messages *)

Definition nl : string := String (ascii_of_nat 10) EmptyString.

Definition msg_frequency : string :=
  "Ranging frequency for %s resolution must be at least 1 and no more than %d".
Definition msg_not_detected : string :=
  "VL53L5CX not detected at requested address".
Definition msg_loading : string := "VL53L5CX ULD Loading failed".
Definition msg_start : string := "start error = 0x%02X".
Definition msg_get_integration : string :=
  String.append "vl53l5cx_get_integration_time_ms failed, status %u" nl.
Definition msg_motion_init : string :=
  "Motion indicator init failed with status : %u".
Definition msg_motion_min : string :=
  "Motion indicator minimum distance must be at least 400mm".
Definition msg_motion_max : string :=
  "Motion indicator maximum distance must be greater than minimum".
Definition msg_motion_delta : string :=
  "Motion indicator maximum distance can be no greater than 1500mm above minimum distance".
Definition msg_motion_set : string :=
  String.append "Motion indicator set distance failed with status : %u" nl.
Definition msg_range : string := "%s must be between %d and %d".
Definition msg_calibrate : string :=
  "vl53l5cx_calibrate_xtalk failed, status %u".
Definition msg_ranging_mode : string :=
  String.append "vl53l5cx_set_ranging_mode failed, status %u" nl.

(** ** Driver calls, as they are logged *)

Inductive Call :=
| call_Reset_Sensor (pin : Z)
| call_is_alive
| call_init
| call_set_resolution (r : vl_resolution)
| call_set_target_order (o : vl_target_order)
| call_start_ranging
| call_stop_ranging
| call_check_data_ready
| call_get_ranging_data
| call_get_integration_time_ms
| call_set_integration_time_ms (ms : Z)
| call_set_ranging_mode (m : vl_ranging_mode)
| call_motion_indicator_init (r : vl_resolution)
| call_motion_indicator_set_distance_motion (dmin dmax : Z)
| call_calibrate_xtalk (reflectance samples distance : Z)
| call_get_caldata_xtalk.

Section Facade.

(** What the vendor driver keeps that the facade never looks at: the rest
    of the handle, the sensor behind the bus, the motion configuration. *)
Variables X W MC : Type.

(** The vendor's compile-time number of targets per zone. *)
Variable VL53L5CX_NB_TARGET_PER_ZONE : Z.

Record VL53L5CX_Configuration := mkConfiguration {
  platform_address : Z;
  streamcount : Z;
  internals : X
}.

(** A driver function reads and writes the handle and the sensor; an
    out-parameter is passed in and handed back. *)
Definition drv (A : Type) : Type :=
  VL53L5CX_Configuration -> W -> A * VL53L5CX_Configuration * W.

Record ULD := mkULD {
  Reset_Sensor : Z -> W -> W;
  vl53l5cx_is_alive : Z -> drv (Z * Z);
  vl53l5cx_init : drv Z;
  vl53l5cx_set_resolution : vl_resolution -> drv Z;
  vl53l5cx_set_target_order : vl_target_order -> drv Z;
  vl53l5cx_start_ranging : drv Z;
  vl53l5cx_stop_ranging : drv Z;
  vl53l5cx_check_data_ready : Z -> drv (Z * Z);
  vl53l5cx_get_ranging_data :
    VL53L5CX_ResultsData -> drv (Z * VL53L5CX_ResultsData);
  vl53l5cx_get_integration_time_ms : Z -> drv (Z * Z);
  vl53l5cx_set_integration_time_ms : Z -> drv Z;
  vl53l5cx_set_ranging_mode : vl_ranging_mode -> drv Z;
  motion_config_zero : MC;
  vl53l5cx_motion_indicator_init : MC -> vl_resolution -> drv (Z * MC);
  vl53l5cx_motion_indicator_set_distance_motion :
    MC -> Z -> Z -> drv (Z * MC);
  vl53l5cx_calibrate_xtalk : Z -> Z -> Z -> drv Z;
  vl53l5cx_get_caldata_xtalk : list Z -> drv (Z * list Z)
}.

Variable uld : ULD.

(** ** The object *)

Record VL53L5cx := mkVL53L5cx {
  _lpn_pin : Z;
  _dev : VL53L5CX_Configuration;
  _resolution : resolution_t;
  _target_order : target_order_t;
  _ranging_frequency : Z;
  _results : VL53L5CX_ResultsData
}.

Definition with_dev (d : VL53L5CX_Configuration) (o : VL53L5cx) : VL53L5cx :=
  mkVL53L5cx (_lpn_pin o) d (_resolution o) (_target_order o)
             (_ranging_frequency o) (_results o).

Definition with_results (r : VL53L5CX_ResultsData) (o : VL53L5cx) : VL53L5cx :=
  mkVL53L5cx (_lpn_pin o) (_dev o) (_resolution o) (_target_order o)
             (_ranging_frequency o) r.

(** The constructor assigns five members; [_results] and the rest of
    [_dev] keep what the storage held ([raw]). *)
Definition VL53L5cx_new (raw : VL53L5cx)
           (lpnPin deviceAddress : Z) (resolution : resolution_t)
           (targetOrder : target_order_t) (rangingFrequency : Z) : VL53L5cx :=
  mkVL53L5cx lpnPin
             (mkConfiguration deviceAddress
                              (streamcount (_dev raw)) (internals (_dev raw)))
             resolution targetOrder rangingFrequency (_results raw).

(** ** Computations *)

Record Sys := mkSys {
  this : VL53L5cx;
  hw : W;
  calls : list Call
}.

(** A call into the driver: logged, then run on the handle and the sensor. *)
Definition driver {A} (c : Call) (f : drv A) : M Sys A :=
  fun s =>
    let '(a, d, w) := f (_dev (this s)) (hw s) in
    (Ok a, mkSys (with_dev d (this s)) w (calls s ++ [c])).

Definition platform (c : Call) (f : W -> W) : M Sys unit :=
  fun s => (Ok tt, mkSys (this s) (f (hw s)) (calls s ++ [c])).

Definition get {A} (f : VL53L5cx -> A) : M Sys A :=
  fun s => (Ok (f (this s)), s).

Definition set_results (r : VL53L5CX_ResultsData) : M Sys unit :=
  fun s => (Ok tt, mkSys (with_results r (this s)) (hw s) (calls s)).

Definition vl_resolution_of (r : resolution_t) : vl_resolution :=
  match r with
  | RESOLUTION_4X4 => VL53L5CX_RESOLUTION_4X4
  | RESOLUTION_8X8 => VL53L5CX_RESOLUTION_8X8
  end.

Definition vl_target_order_of (o : target_order_t) : vl_target_order :=
  match o with
  | TARGET_ORDER_STRONGEST => VL53L5CX_TARGET_ORDER_STRONGEST
  | TARGET_ORDER_CLOSEST => VL53L5CX_TARGET_ORDER_CLOSEST
  end.

(** ** The filters *)

Definition bozoFilter (cond : bool) (msg : string) : M Sys unit :=
  if cond then reportForever msg [] else ret tt.

Definition checkStatus (error : Z) (fmt : string) : M Sys unit :=
  if negb (error =? 0) then reportForever fmt [ArgNum error] else ret tt.

Definition rangeFilter (val minval maxval : Z) (valname : string)
  : M Sys unit :=
  if (val <? minval) || (val >? maxval)
  then reportForever msg_range [ArgStr valname; ArgNum minval; ArgNum maxval]
  else ret tt.

(** [resolution] and [label] are received and not used. *)
Definition check_ranging_frequency (resolution : resolution_t) (maxval : Z)
           (label : string) : M Sys unit :=
  f <- get _ranging_frequency ;;
  if (f <? 1) || (f >? maxval)
  then reportForever msg_frequency [ArgNum maxval]
  else ret tt.

(** ** Start-up *)

Definition init : M Sys unit :=
  check_ranging_frequency RESOLUTION_4X4 60 "4X4" ;;
  check_ranging_frequency RESOLUTION_8X8 15 "8X8" ;;
  pin <- get _lpn_pin ;;
  platform (call_Reset_Sensor pin) (Reset_Sensor uld pin) ;;
  '(error, isAlive) <- driver call_is_alive (vl53l5cx_is_alive uld 0) ;;
  (if (isAlive =? 0) || negb (error =? 0)
   then reportForever msg_not_detected []
   else ret tt) ;;
  error <- driver call_init (vl53l5cx_init uld) ;;
  (if negb (error =? 0)
   then reportForever msg_loading []
   else ret tt) ;;
  r <- get _resolution ;;
  driver (call_set_resolution (vl_resolution_of r))
         (vl53l5cx_set_resolution uld (vl_resolution_of r)) ;;
  o <- get _target_order ;;
  driver (call_set_target_order (vl_target_order_of o))
         (vl53l5cx_set_target_order uld (vl_target_order_of o)) ;;
  ret tt.

Definition start_ranging : M Sys unit :=
  error <- driver call_start_ranging (vl53l5cx_start_ranging uld) ;;
  checkStatus error msg_start.

Definition begin : M Sys unit :=
  init ;;
  start_ranging.

(** ** Polling *)

Definition isReady : M Sys bool :=
  '(_, is_ready) <- driver call_check_data_ready
                           (vl53l5cx_check_data_ready uld 0) ;;
  if negb (is_ready =? 0) then
    buf <- get _results ;;
    '(_, frame) <- driver call_get_ranging_data
                          (vl53l5cx_get_ranging_data uld buf) ;;
    set_results frame ;;
    ret true
  else ret false.

(** ** Accessors: each returns [uint8_t] *)

Definition getStreamCount (o : VL53L5cx) : Z :=
  to_uint8 (streamcount (_dev o)).

Definition target_index (zone target : Z) : Z :=
  VL53L5CX_NB_TARGET_PER_ZONE * zone + target.

Definition getTargetStatus (o : VL53L5cx) (zone target : Z) : option Z :=
  option_map to_uint8
             (array_get (target_status (_results o)) (target_index zone target)).

Definition getDistance (o : VL53L5cx) (zone target : Z) : option Z :=
  option_map to_uint8
             (array_get (distance_mm (_results o)) (target_index zone target)).

Definition getSignalPerSpad (o : VL53L5cx) (zone target : Z) : option Z :=
  option_map to_uint8
             (array_get (signal_per_spad (_results o)) (target_index zone target)).

Definition getRangeSigma (o : VL53L5cx) (zone target : Z) : option Z :=
  option_map to_uint8
             (array_get (range_sigma_mm (_results o)) (target_index zone target)).

Definition getNbTargetDetected (o : VL53L5cx) (zone : Z) : option Z :=
  option_map to_uint8 (array_get (nb_target_detected (_results o)) zone).

Definition getAmbientPerSpad (o : VL53L5cx) (zone : Z) : option Z :=
  option_map to_uint8 (array_get (ambient_per_spad (_results o)) zone).

Definition getNbSpadsEnabled (o : VL53L5cx) (zone : Z) : option Z :=
  option_map to_uint8 (array_get (nb_spads_enabled (_results o)) zone).

(** ** Control and calibration *)

Definition stop : M Sys unit :=
  driver call_stop_ranging (vl53l5cx_stop_ranging uld) ;;
  ret tt.

Definition getIntegrationTimeMsec : M Sys Z :=
  '(error, integration_time_ms) <-
    driver call_get_integration_time_ms
           (vl53l5cx_get_integration_time_ms uld 0) ;;
  checkStatus error msg_get_integration ;;
  ret integration_time_ms.

(** The difference of the two [uint16_t] is taken after integer promotion;
    it is evaluated only past the second filter, where it is not negative. *)
Definition addMotionIndicator (distanceMin distanceMax : Z) : M Sys unit :=
  r <- get _resolution ;;
  '(error, motion_config) <-
    driver (call_motion_indicator_init (vl_resolution_of r))
           (vl53l5cx_motion_indicator_init
              uld (motion_config_zero uld) (vl_resolution_of r)) ;;
  checkStatus error msg_motion_init ;;
  if (distanceMin >? 0) && (distanceMax >? 0) then
    bozoFilter (distanceMin <? 400) msg_motion_min ;;
    bozoFilter (distanceMax <? distanceMin) msg_motion_max ;;
    bozoFilter (distanceMax - distanceMin >? 1500) msg_motion_delta ;;
    '(error, _) <-
      driver (call_motion_indicator_set_distance_motion distanceMin distanceMax)
             (vl53l5cx_motion_indicator_set_distance_motion
                uld motion_config distanceMin distanceMax) ;;
    checkStatus error msg_motion_set
  else ret tt.

Definition calibrateXtalk (reflectancePercent samples distance : Z)
  : M Sys unit :=
  rangeFilter reflectancePercent 1 99 "Reflectance perecent" ;;
  rangeFilter samples 1 16 "Number of samples" ;;
  rangeFilter distance 600 3000 "Distance" ;;
  error <- driver (call_calibrate_xtalk reflectancePercent samples distance)
                  (vl53l5cx_calibrate_xtalk
                     uld reflectancePercent samples distance) ;;
  checkStatus error msg_calibrate.

(** The buffer is passed by reference: the method hands it back. *)
Definition getXtalkCalibrationData (data : list Z) : M Sys (list Z) :=
  '(_, data') <- driver call_get_caldata_xtalk
                        (vl53l5cx_get_caldata_xtalk uld data) ;;
  ret data'.

Definition setXtalkCalibrationData (data : list Z) : M Sys (list Z) :=
  ret data.

(** ** The autonomous variant

    The derived class adds one member, written by its constructor only;
    its [begin] runs on the base sub-object. *)

Record VL53L5cxAutonomous := mkAutonomous {
  super : VL53L5cx;
  _integration_time_msec : Z
}.

(** The base constructor is called without a ranging frequency, so with
    the default of the class declaration ([defaultFrequency]). *)
Definition VL53L5cxAutonomous_new (raw : VL53L5cx) (defaultFrequency : Z)
           (lpnPin integrationTimeMsec deviceAddress : Z)
           (resolution : resolution_t) (targetOrder : target_order_t)
  : VL53L5cxAutonomous :=
  mkAutonomous
    (VL53L5cx_new raw lpnPin deviceAddress resolution targetOrder
                  defaultFrequency)
    integrationTimeMsec.

Definition VL53L5cxAutonomous_begin (integration_time_msec : Z)
  : M Sys unit :=
  init ;;
  error <- driver (call_set_ranging_mode VL53L5CX_RANGING_MODE_AUTONOMOUS)
                  (vl53l5cx_set_ranging_mode
                     uld VL53L5CX_RANGING_MODE_AUTONOMOUS) ;;
  checkStatus error msg_ranging_mode ;;
  driver (call_set_integration_time_ms integration_time_msec)
         (vl53l5cx_set_integration_time_ms uld integration_time_msec) ;;
  start_ranging.

(** [begin] of an autonomous object. *)
Definition run_autonomous_begin (a : VL53L5cxAutonomous) (w : W)
           (log : list Call) : outcome unit * Sys :=
  VL53L5cxAutonomous_begin (_integration_time_msec a) (mkSys (super a) w log).

End Facade.

(** ** Which halt was it?

    The halts of the parameter checks are told apart from those of the
    driver's status by their message. *)

Definition halted_with (msg : string) (A : Type) (o : outcome A) : bool :=
  match o with
  | Ok _ => false
  | Fatal f _ => String.eqb f msg
  end.

Definition frequency_fatal (o : outcome unit) : bool :=
  halted_with msg_frequency o.

Definition range_fatal (o : outcome unit) : bool :=
  halted_with msg_range o.

Definition window_fatal (o : outcome unit) : bool :=
  halted_with msg_motion_min o || halted_with msg_motion_max o
  || halted_with msg_motion_delta o.

(** ** The bounds as the specification words them *)

Definition max_frequency (r : resolution_t) : Z :=
  match r with RESOLUTION_4X4 => 60 | RESOLUTION_8X8 => 15 end.

Definition spec_frequency_invalid (r : resolution_t) (f : Z) : bool :=
  (f =? 0) || (f >? max_frequency r).

Definition spec_window_invalid (dmin dmax : Z) : bool :=
  (dmin <? 400) || (dmax <=? dmin) || (dmax - dmin >? 1500).

Definition spec_xtalk_invalid (reflectance samples distance : Z) : bool :=
  negb ((1 <=? reflectance) && (reflectance <=? 99))
  || negb ((1 <=? samples) && (samples <=? 16))
  || negb ((600 <=? distance) && (distance <=? 3000)).

(** What the three filters of [addMotionIndicator] test. *)
Definition window_filtered (dmin dmax : Z) : bool :=
  (dmin <? 400) || (dmax <? dmin) || (dmax - dmin >? 1500).

(** ** A bench driver

    A driver with no state of its own, answering every call from a script:
    the status of each call, the liveness and data-ready flags, the frame
    and the stream count it delivers. *)

Record bench := mkBench {
  status_of : Call -> Z;
  alive : Z;
  ready : Z;
  frame : VL53L5CX_ResultsData;
  stream : Z;
  integration : Z
}.

Definition bench_uld (b : bench) : ULD unit unit unit :=
  mkULD
    (fun _ w => w)
    (fun _ d w => ((status_of b call_is_alive, alive b), d, w))
    (fun d w => (status_of b call_init, d, w))
    (fun r d w => (status_of b (call_set_resolution r), d, w))
    (fun o d w => (status_of b (call_set_target_order o), d, w))
    (fun d w => (status_of b call_start_ranging, d, w))
    (fun d w => (status_of b call_stop_ranging, d, w))
    (fun r0 d w =>
       if ready b =? 0
       then ((status_of b call_check_data_ready, r0), d, w)
       else ((status_of b call_check_data_ready, ready b),
             mkConfiguration (platform_address d) (stream b) (internals d), w))
    (fun _ d w => ((status_of b call_get_ranging_data, frame b), d, w))
    (fun _ d w =>
       ((status_of b call_get_integration_time_ms, integration b), d, w))
    (fun ms d w => (status_of b (call_set_integration_time_ms ms), d, w))
    (fun m d w => (status_of b (call_set_ranging_mode m), d, w))
    tt
    (fun mc r d w => ((status_of b (call_motion_indicator_init r), mc), d, w))
    (fun mc dmin dmax d w =>
       ((status_of b (call_motion_indicator_set_distance_motion dmin dmax), mc),
        d, w))
    (fun r sm dist d w => (status_of b (call_calibrate_xtalk r sm dist), d, w))
    (fun buf d w => ((status_of b call_get_caldata_xtalk, buf), d, w)).

Definition empty_frame : VL53L5CX_ResultsData :=
  mkResults [] [] [] [] [] [] [].

(** A one-zone frame whose target is 300 mm away. *)
Definition frame_300mm : VL53L5CX_ResultsData :=
  mkResults [7] [1] [120] [55] [9] [300] [5].

Definition all_ok : Call -> Z := fun _ => 0.

(** Every status is zero, but those of the two unchecked calls. *)
Definition unchecked_fail : Call -> Z :=
  fun c =>
    match c with
    | call_stop_ranging => 255
    | call_set_integration_time_ms _ => 255
    | _ => 0
    end.

Definition quiet : bench := mkBench all_ok 1 0 empty_frame 0 0.
Definition delivering : bench := mkBench all_ok 1 1 frame_300mm 1 0.
Definition grumpy : bench := mkBench unchecked_fail 1 0 empty_frame 0 0.

Definition blank : VL53L5cx unit :=
  mkVL53L5cx 0 (mkConfiguration 0 0 tt) RESOLUTION_4X4 TARGET_ORDER_STRONGEST
             0 empty_frame.

Definition boot (o : VL53L5cx unit) : Sys unit unit := mkSys o tt [].

Definition small_grid (f : Z) : Sys unit unit :=
  boot (VL53L5cx_new blank 5 41 RESOLUTION_4X4 TARGET_ORDER_CLOSEST f).

Definition large_grid (f : Z) : Sys unit unit :=
  boot (VL53L5cx_new blank 5 41 RESOLUTION_8X8 TARGET_ORDER_CLOSEST f).

(** ** The operations that check their parameters *)






Section Observations.

Variables X W MC : Type.
Variable uld : ULD X W MC.
Implicit Types s : Sys X W.


(** What the driver answers to the calls of a method, from a state. *)

Definition motion_init_status s : Z :=
  fst (fst (fst (vl53l5cx_motion_indicator_init
                   uld (motion_config_zero uld)
                   (vl_resolution_of (_resolution (this s)))
                   (_dev (this s)) (hw s)))).

Definition calibrate_status (r sm d : Z) s : Z :=
  fst (fst (vl53l5cx_calibrate_xtalk uld r sm d (_dev (this s)) (hw s))).

Definition driver_reports_frame s : bool :=
  negb (snd (fst (fst (vl53l5cx_check_data_ready
                         uld 0 (_dev (this s)) (hw s)))) =? 0).

(** The frame the driver writes over the buffer, once it has reported one. *)
Definition driver_frame s : VL53L5CX_ResultsData :=
  let '(_, d, w) := vl53l5cx_check_data_ready uld 0 (_dev (this s)) (hw s) in
  snd (fst (fst (vl53l5cx_get_ranging_data uld (_results (this s)) d w))).

(** The same driver, but for the status of the two calls whose status the
    facade drops. *)
Definition with_unchecked_status (e_stop e_push : Z) : ULD X W MC :=
  mkULD
    (Reset_Sensor uld)
    (vl53l5cx_is_alive uld)
    (vl53l5cx_init uld)
    (vl53l5cx_set_resolution uld)
    (vl53l5cx_set_target_order uld)
    (vl53l5cx_start_ranging uld)
    (fun d w =>
       let '(_, d', w') := vl53l5cx_stop_ranging uld d w in (e_stop, d', w'))
    (vl53l5cx_check_data_ready uld)
    (vl53l5cx_get_ranging_data uld)
    (vl53l5cx_get_integration_time_ms uld)
    (fun ms d w =>
       let '(_, d', w') := vl53l5cx_set_integration_time_ms uld ms d w in
       (e_push, d', w'))
    (vl53l5cx_set_ranging_mode uld)
    (motion_config_zero uld)
    (vl53l5cx_motion_indicator_init uld)
    (vl53l5cx_motion_indicator_set_distance_motion uld)
    (vl53l5cx_calibrate_xtalk uld)
    (vl53l5cx_get_caldata_xtalk uld).

(** The calls of a complete autonomous start-up. *)
Definition autonomous_sequence (o : VL53L5cx X) (ms : Z) : list Call :=
  [call_Reset_Sensor (_lpn_pin o); call_is_alive; call_init;
   call_set_resolution (vl_resolution_of (_resolution o));
   call_set_target_order (vl_target_order_of (_target_order o));
   call_set_ranging_mode VL53L5CX_RANGING_MODE_AUTONOMOUS;
   call_set_integration_time_ms ms;
   call_start_ranging].

End Observations.

(** ** Two sentences of the specification, as propositions *)


(** The stream count is read from the frame buffer. *)
Definition stream_count_reads_frame : Prop :=
  forall (X : Type) (o1 o2 : VL53L5cx X),
    _results o1 = _results o2 -> getStreamCount o1 = getStreamCount o2.

(** ** A caller's session

    A caller holds one object and invokes its methods one after the other;
    what a method returns is dropped here, and a halt ends the session. *)

Inductive method :=
| do_begin
| do_autonomous_begin (integrationTimeMsec : Z)
| do_isReady
| do_stop
| do_getIntegrationTimeMsec
| do_addMotionIndicator (distanceMin distanceMax : Z)
| do_calibrateXtalk (reflectancePercent samples distance : Z)
| do_getXtalkCalibrationData (data : list Z)
| do_setXtalkCalibrationData (data : list Z).

Definition is_poll (m : method) : bool :=
  match m with do_isReady => true | _ => false end.

(** The methods with no check of a parameter or of a status. *)
Definition unchecked (m : method) : bool :=
  match m with
  | do_isReady | do_stop | do_getXtalkCalibrationData _
  | do_setXtalkCalibrationData _ => true
  | _ => false
  end.

(** What a logged call tells the driver of the object's configuration. *)
Definition call_agrees (X : Type) (o : VL53L5cx X) (c : Call) : Prop :=
  match c with
  | call_Reset_Sensor pin => pin = _lpn_pin o
  | call_set_resolution r => r = vl_resolution_of (_resolution o)
  | call_motion_indicator_init r => r = vl_resolution_of (_resolution o)
  | call_set_target_order t => t = vl_target_order_of (_target_order o)
  | _ => True
  end.

Definition same_configuration (X : Type) (o1 o2 : VL53L5cx X) : Prop :=
  _lpn_pin o1 = _lpn_pin o2 /\
  _resolution o1 = _resolution o2 /\
  _target_order o1 = _target_order o2 /\
  _ranging_frequency o1 = _ranging_frequency o2.

Definition with_frequency (X : Type) (f : Z) (o : VL53L5cx X) : VL53L5cx X :=
  mkVL53L5cx (_lpn_pin o) (_dev o) (_resolution o) (_target_order o) f
             (_results o).

(** The conversions of a format string: its percent signs (no format of
    the facade has a doubled one). *)
Fixpoint conversions (fmt : string) : nat :=
  match fmt with
  | EmptyString => 0
  | String c rest =>
      (if Ascii.eqb c "%"%char then 1 else 0) + conversions rest
  end%nat.

(** A halt is well formed when it passes as many arguments as its format
    has conversions. *)
Definition well_formed_halt (A : Type) (o : outcome A) : bool :=
  match o with
  | Ok _ => true
  | Fatal f args => Nat.eqb (conversions f) (List.length args)
  end.

(** The messages that report a status of the driver. *)
Definition status_messages : list string :=
  [msg_start; msg_get_integration; msg_motion_init; msg_motion_set;
   msg_calibrate; msg_ranging_mode].

(** The calls of the polls that answered [bs]. *)
Definition poll_log (bs : list bool) : list Call :=
  flat_map (fun b : bool =>
              if b then [call_check_data_ready; call_get_ranging_data]
              else [call_check_data_ready]) bs.

Section Sessions.

Variables X W MC : Type.
Variable uld : ULD X W MC.
Implicit Types s : Sys X W.

Definition invoke (m : method) : M (Sys X W) unit :=
  match m with
  | do_begin => begin uld
  | do_autonomous_begin ms => VL53L5cxAutonomous_begin uld ms
  | do_isReady => isReady uld ;; ret tt
  | do_stop => stop uld
  | do_getIntegrationTimeMsec => getIntegrationTimeMsec uld ;; ret tt
  | do_addMotionIndicator dmin dmax => addMotionIndicator uld dmin dmax
  | do_calibrateXtalk r sm d => calibrateXtalk uld r sm d
  | do_getXtalkCalibrationData data =>
      getXtalkCalibrationData uld data ;; ret tt
  | do_setXtalkCalibrationData data =>
      setXtalkCalibrationData (X:=X) (W:=W) data ;; ret tt
  end.

Fixpoint session (ms : list method) : M (Sys X W) unit :=
  match ms with
  | [] => ret tt
  | m :: rest => invoke m ;; session rest
  end.

(** [n] polls in a row, and what each returned. *)
Fixpoint polls (n : nat) : M (Sys X W) (list bool) :=
  match n with
  | O => ret []
  | S k => b <- isReady uld ;; bs <- polls k ;; ret (b :: bs)
  end.

(** The frequency passes both checks of [init]. *)
Definition frequency_ok s : bool :=
  negb ((_ranging_frequency (this s) <? 1)
        || (_ranging_frequency (this s) >? 15)).

(** What the driver answers to the calls of [init], in their order. *)

Definition sensor_present s : bool :=
  let '(error, isAlive, _, _) :=
    vl53l5cx_is_alive uld 0 (_dev (this s))
                      (Reset_Sensor uld (_lpn_pin (this s)) (hw s)) in
  negb ((isAlive =? 0) || negb (error =? 0)).

Definition loading_status s : Z :=
  let '(_, d, w) :=
    vl53l5cx_is_alive uld 0 (_dev (this s))
                      (Reset_Sensor uld (_lpn_pin (this s)) (hw s)) in
  fst (fst (vl53l5cx_init uld d w)).

Definition init_sequence (o : VL53L5cx X) : list Call :=
  [call_Reset_Sensor (_lpn_pin o); call_is_alive; call_init;
   call_set_resolution (vl_resolution_of (_resolution o));
   call_set_target_order (vl_target_order_of (_target_order o))].

(** The status of the start of ranging, after [init]. *)
Definition start_status s : Z :=
  fst (fst (vl53l5cx_start_ranging uld (_dev (this (snd (init uld s))))
                                   (hw (snd (init uld s))))).

(** The status of the push of a window, once the motion indicator is
    created. *)
Definition motion_set_status (dmin dmax : Z) s : Z :=
  let '(_, mc, d, w) :=
    vl53l5cx_motion_indicator_init
      uld (motion_config_zero uld) (vl_resolution_of (_resolution (this s)))
      (_dev (this s)) (hw s) in
  fst (fst (fst (vl53l5cx_motion_indicator_set_distance_motion
                   uld mc dmin dmax d w))).

(** The same driver, but for the status of the five further calls whose
    status the facade drops: each is replaced by what [e] gives. *)
Definition with_dropped_status (e : Call -> Z) : ULD X W MC :=
  mkULD
    (Reset_Sensor uld)
    (vl53l5cx_is_alive uld)
    (vl53l5cx_init uld)
    (fun r d w =>
       let '(_, d', w') := vl53l5cx_set_resolution uld r d w in
       (e (call_set_resolution r), d', w'))
    (fun o d w =>
       let '(_, d', w') := vl53l5cx_set_target_order uld o d w in
       (e (call_set_target_order o), d', w'))
    (vl53l5cx_start_ranging uld)
    (vl53l5cx_stop_ranging uld)
    (fun r0 d w =>
       let '(_, rdy, d', w') := vl53l5cx_check_data_ready uld r0 d w in
       (e call_check_data_ready, rdy, d', w'))
    (fun buf d w =>
       let '(_, fr, d', w') := vl53l5cx_get_ranging_data uld buf d w in
       (e call_get_ranging_data, fr, d', w'))
    (vl53l5cx_get_integration_time_ms uld)
    (vl53l5cx_set_integration_time_ms uld)
    (vl53l5cx_set_ranging_mode uld)
    (motion_config_zero uld)
    (vl53l5cx_motion_indicator_init uld)
    (vl53l5cx_motion_indicator_set_distance_motion uld)
    (vl53l5cx_calibrate_xtalk uld)
    (fun buf d w =>
       let '(_, out, d', w') := vl53l5cx_get_caldata_xtalk uld buf d w in
       (e call_get_caldata_xtalk, out, d', w')).

End Sessions.

(** ** A driver that keeps a record

    The same driver behind a sensor that also keeps, in the order received,
    each call with the arguments it was given and the status it answered
    (0 for the reset, which answers none). *)

Section Recording.

Variables X W MC : Type.
Variable uld : ULD X W MC.

Definition recorded (A : Type) (c : Call) (status : A -> Z) (f : drv X W A)
  : drv X (W * list (Call * Z)) A :=
  fun d w =>
    let '(a, d', w') := f d (fst w) in
    (a, d', (w', snd w ++ [(c, status a)])).

Definition recording : ULD X (W * list (Call * Z)) MC :=
  mkULD
    (fun pin w =>
       (Reset_Sensor uld pin (fst w), snd w ++ [(call_Reset_Sensor pin, 0)]))
    (fun a0 => recorded call_is_alive fst (vl53l5cx_is_alive uld a0))
    (recorded call_init (fun e => e) (vl53l5cx_init uld))
    (fun r => recorded (call_set_resolution r) (fun e => e)
                       (vl53l5cx_set_resolution uld r))
    (fun o => recorded (call_set_target_order o) (fun e => e)
                       (vl53l5cx_set_target_order uld o))
    (recorded call_start_ranging (fun e => e) (vl53l5cx_start_ranging uld))
    (recorded call_stop_ranging (fun e => e) (vl53l5cx_stop_ranging uld))
    (fun r0 => recorded call_check_data_ready fst
                        (vl53l5cx_check_data_ready uld r0))
    (fun buf => recorded call_get_ranging_data fst
                         (vl53l5cx_get_ranging_data uld buf))
    (fun t0 => recorded call_get_integration_time_ms fst
                        (vl53l5cx_get_integration_time_ms uld t0))
    (fun ms => recorded (call_set_integration_time_ms ms) (fun e => e)
                        (vl53l5cx_set_integration_time_ms uld ms))
    (fun m => recorded (call_set_ranging_mode m) (fun e => e)
                       (vl53l5cx_set_ranging_mode uld m))
    (motion_config_zero uld)
    (fun mc r => recorded (call_motion_indicator_init r) fst
                          (vl53l5cx_motion_indicator_init uld mc r))
    (fun mc dmin dmax =>
       recorded (call_motion_indicator_set_distance_motion dmin dmax) fst
                (vl53l5cx_motion_indicator_set_distance_motion
                   uld mc dmin dmax))
    (fun r sm dist => recorded (call_calibrate_xtalk r sm dist) (fun e => e)
                               (vl53l5cx_calibrate_xtalk uld r sm dist))
    (fun buf => recorded call_get_caldata_xtalk fst
                         (vl53l5cx_get_caldata_xtalk uld buf)).

End Recording.

(** The diagnostic of a call whose status is checked. *)
Definition message_of (c : Call) : string :=
  match c with
  | call_start_ranging => msg_start
  | call_get_integration_time_ms => msg_get_integration
  | call_motion_indicator_init _ => msg_motion_init
  | call_motion_indicator_set_distance_motion _ _ => msg_motion_set
  | call_calibrate_xtalk _ _ _ => msg_calibrate
  | call_set_ranging_mode _ => msg_ranging_mode
  | _ => EmptyString
  end.

(** What the range filters of [calibrateXtalk] report: the first value out
    of its range, by name, with the bounds of that range. *)
Definition range_report (reflectance samples distance : Z) : list fmt_arg :=
  if (reflectance <? 1) || (reflectance >? 99)
  then [ArgStr "Reflectance perecent"; ArgNum 1; ArgNum 99]
  else if (samples <? 1) || (samples >? 16)
       then [ArgStr "Number of samples"; ArgNum 1; ArgNum 16]
       else [ArgStr "Distance"; ArgNum 600; ArgNum 3000].

Definition range_reports : list (string * Z * Z) :=
  [("Reflectance perecent"%string, 1, 99); ("Number of samples"%string, 1, 16);
   ("Distance"%string, 600, 3000)].

(** A halt, against the record of the driver: a halt on a status names the
    call the driver answered last and carries the status it answered, which
    is not zero; the frequency halt carries the bound 60 or 15; a range halt
    carries the name and the bounds of one of the three ranges; the other
    halts carry nothing. *)
Definition halt_explained (o : outcome unit) (received : list (Call * Z))
  : bool :=
  match o with
  | Ok _ => true
  | Fatal f args =>
      if String.eqb f msg_frequency then
        match args with
        | [ArgNum n] => (n =? 60) || (n =? 15)
        | _ => false
        end
      else if existsb (String.eqb f) status_messages then
        match rev received, args with
        | (c, e) :: _, [ArgNum n] =>
            String.eqb (message_of c) f && (n =? e) && negb (e =? 0)
        | _, _ => false
        end
      else if String.eqb f msg_range then
        match args with
        | [ArgStr name; ArgNum lo; ArgNum hi] =>
            existsb (fun t : string * Z * Z =>
                       String.eqb name (fst (fst t)) && (lo =? snd (fst t))
                       && (hi =? snd t))
                    range_reports
        | _ => false
        end
      else
        existsb (String.eqb f)
                [msg_not_detected; msg_loading; msg_motion_min;
                 msg_motion_max; msg_motion_delta]
        && match args with [] => true | _ => false end
  end.

(** More of the bench: a driver that fails every call with 255, one whose
    sensor does not answer the probe, and an object holding a frame. *)
Definition failing : bench :=
  mkBench (fun _ => 255) 1 0 empty_frame 0 0.

Definition absent : bench := mkBench all_ok 0 0 empty_frame 0 0.

Definition framed : VL53L5cx unit := with_results frame_300mm blank.

Unset Implicit Arguments.

(** * Properties *)

(** Unfolds a method down to the driver's answers, and names them. *)
Ltac unfold_method :=
  unfold run_autonomous_begin in *;
  unfold VL53L5cxAutonomous_begin, begin in *;
  unfold init, start_ranging, isReady, stop, getIntegrationTimeMsec,
    addMotionIndicator, calibrateXtalk, getXtalkCalibrationData,
    setXtalkCalibrationData, check_ranging_frequency, rangeFilter,
    bozoFilter, checkStatus,
    set_results, platform, driver, get, reportForever, bind, ret in *.

Ltac answer :=
  match goal with
  | |- context [match ?e with pair _ _ => _ end] =>
      lazymatch e with
      | context [match _ with pair _ _ => _ end] => fail
      | context [if _ then _ else _] => fail
      | _ => destruct e
      end
  | |- context [if ?b then _ else _] => destruct b eqn:?
  end.

Ltac reduce :=
  cbn [fst snd this hw calls with_dev with_results _dev _results _lpn_pin
       _resolution _target_order _ranging_frequency].

Ltac run := unfold_method; reduce; repeat (answer; reduce).

(** Boolean tests of the code, as arithmetic. *)
Ltac arith :=
  repeat match goal with
         | H : _ = true |- _ => revert H
         | H : _ = false |- _ => revert H
         end;
  rewrite ?Z.gtb_ltb, ?Z.geb_leb;
  rewrite ?orb_true_iff, ?orb_false_iff, ?andb_true_iff, ?andb_false_iff,
    ?negb_true_iff, ?negb_false_iff;
  rewrite ?orb_true_iff, ?orb_false_iff, ?andb_true_iff, ?andb_false_iff,
    ?negb_true_iff, ?negb_false_iff;
  rewrite ?Z.ltb_lt, ?Z.ltb_ge, ?Z.leb_le, ?Z.leb_gt, ?Z.eqb_eq, ?Z.eqb_neq;
  intros; try lia.

Section Startup.

Variables X W MC : Type.
Variable uld : ULD X W MC.
Implicit Types s : Sys X W.


(** Both checks of [init] run whatever the resolution is: the start-up
    halts on the frequency exactly when it is below 1 or above 15. *)
Lemma init_frequency_gate s :
  frequency_fatal (fst (init uld s)) =
  (_ranging_frequency (this s) <? 1) || (_ranging_frequency (this s) >? 15).
Proof.
  run; cbn; symmetry; arith.
Qed.


(** A start-up that does not halt has issued the five calls of [init],
    in this order. *)
Lemma init_calls s :
  is_fatal (fst (init uld s)) = false ->
  calls (snd (init uld s)) =
  calls s ++ [call_Reset_Sensor (_lpn_pin (this s)); call_is_alive; call_init;
              call_set_resolution (vl_resolution_of (_resolution (this s)));
              call_set_target_order
                (vl_target_order_of (_target_order (this s)))].
Proof.
  run; cbn; try discriminate; intros _.
  now rewrite <- !app_assoc.
Qed.

(** C1: the frequency check of the start-up is meant to depend on the
    resolution, 60 being allowed on the small grid.  The code runs the
    check against 60 and then the check against 15 on every object: a
    small-grid object built with frequency 60, valid by the
    specification's bound, halts in [init] (and so in [begin]) with the
    frequency message, before any driver call. *)
Theorem begin_small_grid_60_halts raw lpnPin deviceAddress targetOrder w log :
  let s := mkSys (VL53L5cx_new raw lpnPin deviceAddress RESOLUTION_4X4
                               targetOrder 60) w log in
  spec_frequency_invalid RESOLUTION_4X4 60 = false /\
  init uld s = (Fatal msg_frequency [ArgNum 15], s) /\
  begin uld s = (Fatal msg_frequency [ArgNum 15], s).
Proof. cbv zeta. repeat split. Qed.

(** On the large grid the code agrees with the specification's bound. *)
Lemma init_frequency_gate_8x8 s :
  is_uint8 (_ranging_frequency (this s)) ->
  _resolution (this s) = RESOLUTION_8X8 ->
  frequency_fatal (fst (init uld s)) =
  spec_frequency_invalid RESOLUTION_8X8 (_ranging_frequency (this s)).
Proof.
  intros Hf _. rewrite init_frequency_gate.
  unfold spec_frequency_invalid, is_uint8 in *.
  cbn [max_frequency]. f_equal.
  destruct (Z.ltb_spec (_ranging_frequency (this s)) 1),
           (Z.eqb_spec (_ranging_frequency (this s)) 0); try reflexivity; lia.
Qed.

(** On the small grid it does so up to 15 only. *)
Lemma init_frequency_gate_4x4 s :
  is_uint8 (_ranging_frequency (this s)) ->
  _resolution (this s) = RESOLUTION_4X4 ->
  frequency_fatal (fst (init uld s)) =
  spec_frequency_invalid RESOLUTION_4X4 (_ranging_frequency (this s))
  || ((15 <? _ranging_frequency (this s)) && (_ranging_frequency (this s) <=? 60)).
Proof.
  intros Hf _. rewrite init_frequency_gate.
  unfold spec_frequency_invalid, is_uint8 in *.
  cbn [max_frequency].
  set (f := _ranging_frequency (this s)) in *.
  rewrite !Z.gtb_ltb.
  destruct (Z.ltb_spec f 1), (Z.eqb_spec f 0), (Z.ltb_spec 15 f),
    (Z.ltb_spec 60 f), (Z.leb_spec f 60); try reflexivity; lia.
Qed.

End Startup.

Section Checks.

Variables X W MC : Type.
Variable uld : ULD X W MC.
Implicit Types s : Sys X W.


(** C5: [calibrateXtalk] halts in a range filter exactly when the
    reflectance is outside [1,99], or the number of samples outside
    [1,16], or the distance outside [600,3000]; it has then called nothing
    and changed nothing.  Inside the three ranges it issues the
    calibration call, once, with the three values, and halts only if the
    driver's status is not zero. *)
Theorem calibrateXtalk_gate r sm d s :
  range_fatal (fst (calibrateXtalk uld r sm d s)) = spec_xtalk_invalid r sm d /\
  (if spec_xtalk_invalid r sm d
   then snd (calibrateXtalk uld r sm d s) = s
   else calls (snd (calibrateXtalk uld r sm d s)) =
        calls s ++ [call_calibrate_xtalk r sm d] /\
        is_fatal (fst (calibrateXtalk uld r sm d s)) =
        negb (calibrate_status uld r sm d s =? 0)).
Proof.
  unfold spec_xtalk_invalid, calibrate_status.
  run; cbn; repeat split; try reflexivity; try (exfalso; arith);
    try (symmetry; assumption).
Qed.


(** The window reaches the driver exactly when no filter halts. *)
Lemma addMotionIndicator_calls dmin dmax s :
  0 < dmin -> 0 < dmax ->
  calls (snd (addMotionIndicator uld dmin dmax s)) =
  calls s ++
  call_motion_indicator_init (vl_resolution_of (_resolution (this s)))
  :: (if (motion_init_status uld s =? 0) && negb (window_filtered dmin dmax)
      then [call_motion_indicator_set_distance_motion dmin dmax]
      else []).
Proof.
  unfold window_filtered, motion_init_status.
  run; cbn in *; intros; subst; rewrite <- ?app_assoc; try reflexivity;
    exfalso; arith.
Qed.

(** C4: the specification rejects a window whose maximum equals its
    minimum.  The second filter of the code tests [distanceMax <
    distanceMin]: at (500, 500) no filter halts, and once the motion
    indicator is created the window (500, 500) is pushed to the driver. *)
Theorem addMotionIndicator_equal_bounds s :
  spec_window_invalid 500 500 = true /\
  window_fatal (fst (addMotionIndicator uld 500 500 s)) = false /\
  calls (snd (addMotionIndicator uld 500 500 s)) =
  calls s ++
  call_motion_indicator_init (vl_resolution_of (_resolution (this s)))
  :: (if motion_init_status uld s =? 0
      then [call_motion_indicator_set_distance_motion 500 500]
      else []).
Proof.
  split; [reflexivity|]. split.
  - unfold_method; cbn; repeat (answer; cbn); reflexivity.
  - rewrite addMotionIndicator_calls by lia.
    now rewrite andb_true_r.
Qed.



End Checks.

Section Polling.

Variables X W MC : Type.
Variable NB : Z.
Variable uld : ULD X W MC.
Implicit Types (s : Sys X W) (o : VL53L5cx X).

(** C6: a poll asks the driver whether a frame is there.  If not, it
    returns false, the frame buffer is what it was and no frame was
    asked for; if so, it asks for one frame, the buffer becomes the frame
    the driver wrote, and it returns true. *)
Theorem isReady_frame_effect s :
  let r := isReady uld s in
  if driver_reports_frame uld s
  then fst r = Ok true /\
       _results (this (snd r)) = driver_frame uld s /\
       calls (snd r) = calls s ++ [call_check_data_ready; call_get_ranging_data]
  else fst r = Ok false /\
       _results (this (snd r)) = _results (this s) /\
       calls (snd r) = calls s ++ [call_check_data_ready].
Proof.
  unfold driver_reports_frame, driver_frame.
  run; rewrite <- ?app_assoc; cbn in *; repeat split; congruence.
Qed.

(** A poll that finds no frame leaves the buffer alone. *)
Lemma isReady_idle s :
  driver_reports_frame uld s = false ->
  _results (this (snd (isReady uld s))) = _results (this s).
Proof.
  unfold driver_reports_frame.
  run; cbn in *; intros; try reflexivity; congruence.
Qed.

(** A poll never halts, whatever the two driver calls answer. *)
Lemma isReady_total s : is_fatal (fst (isReady uld s)) = false.
Proof. run; reflexivity. Qed.

(** A poll touches the handle and the buffer only. *)
Lemma isReady_configuration s :
  let o' := this (snd (isReady uld s)) in
  _lpn_pin o' = _lpn_pin (this s) /\
  _resolution o' = _resolution (this s) /\
  _target_order o' = _target_order (this s) /\
  _ranging_frequency o' = _ranging_frequency (this s).
Proof. run; cbn; repeat split. Qed.

(** The seven frame accessors read [_results] and nothing else. *)
Lemma frame_accessors_ext o1 o2 zone target :
  _results o1 = _results o2 ->
  getTargetStatus NB o1 zone target = getTargetStatus NB o2 zone target /\
  getDistance NB o1 zone target = getDistance NB o2 zone target /\
  getSignalPerSpad NB o1 zone target = getSignalPerSpad NB o2 zone target /\
  getRangeSigma NB o1 zone target = getRangeSigma NB o2 zone target /\
  getNbTargetDetected o1 zone = getNbTargetDetected o2 zone /\
  getAmbientPerSpad o1 zone = getAmbientPerSpad o2 zone /\
  getNbSpadsEnabled o1 zone = getNbSpadsEnabled o2 zone.
Proof.
  unfold getTargetStatus, getDistance, getSignalPerSpad, getRangeSigma,
    getNbTargetDetected, getAmbientPerSpad, getNbSpadsEnabled.
  intros ->. repeat split.
Qed.

(** A poll that finds no frame changes no answer of a frame accessor. *)
Lemma idle_poll_keeps_answers s zone target :
  driver_reports_frame uld s = false ->
  getDistance NB (this (snd (isReady uld s))) zone target
  = getDistance NB (this s) zone target /\
  getTargetStatus NB (this (snd (isReady uld s))) zone target
  = getTargetStatus NB (this s) zone target.
Proof.
  intros H. pose proof (isReady_idle s H) as E.
  destruct (frame_accessors_ext _ _ zone target E) as (? & ? & _).
  now split.
Qed.

(** What an accessor returns is the stored element cut to eight bits. *)
Lemma to_uint8_range v : is_uint8 (to_uint8 v).
Proof. unfold is_uint8, to_uint8. apply Z.mod_pos_bound. lia. Qed.

Lemma to_uint8_exact v : to_uint8 v = v <-> is_uint8 v.
Proof.
  split.
  - intros <-. apply to_uint8_range.
  - unfold is_uint8, to_uint8. intros H. now apply Z.mod_small.
Qed.

Lemma array_get_in_bounds (a : list Z) (i : Z) :
  0 <= i < Z.of_nat (List.length a) -> exists v, array_get a i = Some v.
Proof.
  intros [H0 H1]. unfold array_get.
  destruct (Z.ltb_spec i 0); [lia|].
  destruct (nth_error a (Z.to_nat i)) eqn:E; [eauto|].
  apply nth_error_None in E. lia.
Qed.

(** X19: Within the grid, [getDistance] answers the stored distance modulo 256:
    the stored distance itself exactly when that is below 256. *)
Lemma getDistance_in_bounds o zone target v :
  array_get (distance_mm (_results o)) (target_index NB zone target) = Some v ->
  getDistance NB o zone target = Some (v mod 256) /\
  (getDistance NB o zone target = Some v <-> is_uint8 v).
Proof.
  unfold getDistance. intros ->. cbn [option_map]. split; [reflexivity|].
  rewrite <- to_uint8_exact. split; [now intros [= ->]|now intros ->].
Qed.

(** Within the grid and the targets of a zone, a read of a frame of the
    vendor's capacity (64 zones) is defined. *)
Lemma getDistance_defined o r zone target :
  0 <= zone < zones r -> 0 <= target < NB ->
  Z.of_nat (List.length (distance_mm (_results o))) = 64 * NB ->
  exists v, array_get (distance_mm (_results o)) (target_index NB zone target)
            = Some v /\
            getDistance NB o zone target = Some (to_uint8 v).
Proof.
  intros Hz Ht Hl.
  destruct (array_get_in_bounds (distance_mm (_results o))
                                (target_index NB zone target)) as [v Hv].
  - unfold target_index. rewrite Hl.
    assert (zones r <= 64) by (destruct r; cbn; lia). nia.
  - exists v. split; [assumption|]. unfold getDistance. now rewrite Hv.
Qed.

(** C2: after a poll that returned true, an accessor is to return the
    value the poll stored.  The accessors all return [uint8_t]: with the
    driver delivering a frame whose first target is 300 mm away, the poll
    returns true, the buffer holds 300 at zone 0, target 0, and
    [getDistance] answers 44. *)
Theorem getDistance_loses_300mm :
  let r := isReady (bench_uld delivering) (boot blank) in
  fst r = Ok true /\
  array_get (distance_mm (_results (this (snd r)))) (target_index NB 0 0)
  = Some 300 /\
  getDistance NB (this (snd r)) 0 0 = Some 44.
Proof.
  unfold getDistance, target_index. rewrite Z.mul_0_r. cbn. repeat split.
Qed.

(** C10, as amended: no accessor is a computation (none can call the
    driver or touch the sensor).  The seven zone and target accessors are
    functions of the frame buffer alone: an object [o2] with the frame of
    [o1] gives their answers, whatever its handle holds.  [getStreamCount]
    does not read the frame: an object [o3] with the stream count of [o1]
    in its handle gives its answer, whatever its frame holds. *)
Theorem accessors_read_their_storage o1 o2 o3 zone target :
  _results o1 = _results o2 ->
  streamcount (_dev o1) = streamcount (_dev o3) ->
  (getTargetStatus NB o1 zone target = getTargetStatus NB o2 zone target /\
   getDistance NB o1 zone target = getDistance NB o2 zone target /\
   getSignalPerSpad NB o1 zone target = getSignalPerSpad NB o2 zone target /\
   getRangeSigma NB o1 zone target = getRangeSigma NB o2 zone target /\
   getNbTargetDetected o1 zone = getNbTargetDetected o2 zone /\
   getAmbientPerSpad o1 zone = getAmbientPerSpad o2 zone /\
   getNbSpadsEnabled o1 zone = getNbSpadsEnabled o2 zone) /\
  getStreamCount o1 = getStreamCount o3.
Proof.
  intros Hframe Hcount. split; [now apply frame_accessors_ext|].
  unfold getStreamCount. now rewrite Hcount.
Qed.

End Polling.

Section Autonomous.

Variables X W MC : Type.
Variable uld : ULD X W MC.
Implicit Types s : Sys X W.

(** C7: the autonomous [begin] runs [init]; if that did not halt it
    selects the autonomous ranging mode on the handle and the sensor as
    [init] left them, and halts on a status that is not zero; otherwise the
    driver's integration-time call is run with the configured value on what
    the mode selection left, then the driver's start-ranging call on what
    the push left, and the result is that of the start: its status decides
    the outcome, its handle and sensor are the final ones.  Its calls are,
    in all cases, the first [n] of the complete sequence, and all eight
    unless it halted. *)
Theorem autonomous_begin_sequence ms s :
  let r := VL53L5cxAutonomous_begin uld ms s in
  (exists n, calls (snd r)
             = calls s ++ firstn n (autonomous_sequence (this s) ms) /\
             (is_fatal (fst r) = true \/ n = 8%nat)) /\
  match init uld s with
  | (Fatal f a, s1) => r = (Fatal f a, s1)
  | (Ok _, s1) =>
      let '(e, d, w) :=
        vl53l5cx_set_ranging_mode uld VL53L5CX_RANGING_MODE_AUTONOMOUS
                                  (_dev (this s1)) (hw s1) in
      let s2 := mkSys (with_dev d (this s1)) w
                      (calls s1 ++
                       [call_set_ranging_mode VL53L5CX_RANGING_MODE_AUTONOMOUS])
      in
      if e =? 0
      then
        let '(_, d3, w3) := vl53l5cx_set_integration_time_ms uld ms d w in
        let '(e4, d4, w4) := vl53l5cx_start_ranging uld d3 w3 in
        r = (if e4 =? 0 then Ok tt else Fatal msg_start [ArgNum e4],
             mkSys (with_dev d4 (this s1)) w4
                   (calls s2 ++
                    [call_set_integration_time_ms ms; call_start_ranging]))
      else r = (Fatal msg_ranging_mode [ArgNum e], s2)
  end.
Proof.
  cbv zeta. split.
  - unfold autonomous_sequence.
    run; cbn; rewrite <- ?app_assoc; cbn;
      first [ exists 0%nat; split; [now rewrite ?app_nil_r | now left]
            | exists 1%nat; split; [reflexivity | now left]
            | exists 2%nat; split; [reflexivity | now left]
            | exists 3%nat; split; [reflexivity | now left]
            | exists 4%nat; split; [reflexivity | now left]
            | exists 5%nat; split; [reflexivity | now left]
            | exists 6%nat; split; [reflexivity | now left]
            | exists 7%nat; split; [reflexivity | now left]
            | exists 8%nat; split; [reflexivity | now right]
            | exists 8%nat; split; [reflexivity | now left] ].
  - remember (VL53L5cxAutonomous_begin uld ms s) as r eqn:Er.
    unfold VL53L5cxAutonomous_begin in Er. unfold bind at 1 in Er.
    destruct (init uld s) as [[[]|f a] s1]; [|assumption].
    subst r. unfold_method; reduce.
    destruct (vl53l5cx_set_ranging_mode uld VL53L5CX_RANGING_MODE_AUTONOMOUS
                                        (_dev (this s1)) (hw s1))
      as [[e d] w]; reduce.
    destruct (e =? 0); cbn [negb]; reduce; [|reflexivity].
    destruct (vl53l5cx_set_integration_time_ms uld ms d w) as [[e3 d3] w3];
      reduce.
    destruct (vl53l5cx_start_ranging uld d3 w3) as [[e4 d4] w4]; reduce.
    rewrite <- !app_assoc.
    destruct (e4 =? 0); reflexivity.
Qed.

(** C8: [stop] returns whatever the driver answers, and neither [stop]
    nor the autonomous [begin] behaves differently when the status of the
    stop-ranging call or of the integration-time call is replaced by any
    other value. *)
Theorem unchecked_status_is_dropped e_stop e_push ms s :
  let uld' := with_unchecked_status uld e_stop e_push in
  fst (stop uld s) = Ok tt /\
  fst (stop uld' s) = Ok tt /\
  stop uld' s = stop uld s /\
  VL53L5cxAutonomous_begin uld' ms s = VL53L5cxAutonomous_begin uld ms s.
Proof.
  cbv zeta. unfold with_unchecked_status.
  repeat split; unfold_method; cbn; repeat (answer; cbn); reflexivity.
Qed.

Lemma stop_total s :
  fst (stop uld s) = Ok tt /\
  calls (snd (stop uld s)) = calls s ++ [call_stop_ranging].
Proof. run; cbn; now split. Qed.

(** C9: [setXtalkCalibrationData] does nothing: the object with its
    handle, the sensor and the call log are as they were, and the buffer
    is handed back as it came. *)
Theorem setXtalkCalibrationData_noop (data : list Z) s :
  let r := setXtalkCalibrationData data s in
  fst r = Ok data /\ snd r = s /\ calls (snd r) = calls s.
Proof. cbv zeta. repeat split. Qed.

End Autonomous.

Section Initialisation.

Variables X W MC : Type.
Variable uld : ULD X W MC.
Implicit Types s : Sys X W.

(** X1: [init] halts on the first of three conditions that fails, in this
    order: the frequency, the liveness probe, the loading of the driver.
    Its calls stop where it halts: none, two (reset and probe), three, or
    all five.  The two last halts carry no status, and the status of the
    two configuration calls is not looked at. *)
Theorem init_outcome s :
  fst (init uld s) =
  (if negb (frequency_ok s)
   then Fatal msg_frequency
              [ArgNum (if (_ranging_frequency (this s) <? 1)
                          || (_ranging_frequency (this s) >? 60)
                       then 60 else 15)]
   else if negb (sensor_present uld s) then Fatal msg_not_detected []
   else if negb (loading_status uld s =? 0) then Fatal msg_loading []
   else Ok tt) /\
  calls (snd (init uld s)) =
  calls s ++
  firstn (if negb (frequency_ok s) then 0
          else if negb (sensor_present uld s) then 2
          else if negb (loading_status uld s =? 0) then 3 else 5)
         (init_sequence (this s)).
Proof.
  unfold frequency_ok, sensor_present, loading_status, init_sequence.
  unfold_method; reduce.
  destruct ((_ranging_frequency (this s) <? 1)
            || (_ranging_frequency (this s) >? 60)) eqn:E60;
    destruct ((_ranging_frequency (this s) <? 1)
              || (_ranging_frequency (this s) >? 15)) eqn:E15;
    reduce; try solve [exfalso; arith];
    repeat (answer; reduce); cbn in *; rewrite <- ?app_assoc, ?app_nil_r; cbn;
    try (split; reflexivity); exfalso; arith.
Qed.

(** X3: The frequency rule of the code, for both start-ups and both grids: a
    start-up halts on the frequency exactly when it is below 1 or above 15. *)
Theorem begin_frequency_rule ms s :
  frequency_fatal (fst (begin uld s)) = negb (frequency_ok s) /\
  frequency_fatal (fst (VL53L5cxAutonomous_begin uld ms s))
  = negb (frequency_ok s).
Proof.
  unfold frequency_ok. rewrite negb_involutive.
  rewrite <- (init_frequency_gate X W MC uld s).
  unfold begin, VL53L5cxAutonomous_begin, bind.
  destruct (init uld s) as [[[]|f a] s1]; cbn [fst frequency_fatal halted_with];
    split; try reflexivity; run; reflexivity.
Qed.

(** X2: [begin] ends well exactly when the frequency passes, the sensor answers
    the probe, the driver loads and ranging starts, each with a status of
    zero.  Its calls are the first [n] of the five of [init] and the start,
    all six unless it halted: it never selects a ranging mode. *)
Theorem begin_outcome s :
  is_fatal (fst (begin uld s)) =
  negb (frequency_ok s && sensor_present uld s
        && (loading_status uld s =? 0) && (start_status uld s =? 0)) /\
  exists n, calls (snd (begin uld s))
            = calls s ++ firstn n (init_sequence (this s) ++ [call_start_ranging])
            /\ (is_fatal (fst (begin uld s)) = true \/ n = 6%nat).
Proof.
  unfold frequency_ok, sensor_present, loading_status, start_status,
    init_sequence.
  unfold_method; reduce.
  destruct ((_ranging_frequency (this s) <? 1)
            || (_ranging_frequency (this s) >? 60)) eqn:E60;
    destruct ((_ranging_frequency (this s) <? 1)
              || (_ranging_frequency (this s) >? 15)) eqn:E15;
    reduce; try solve [exfalso; arith];
    repeat (answer; reduce);
    repeat match goal with
           | H : negb ?b = true |- _ => apply negb_true_iff in H; rewrite ?H
           | H : negb ?b = false |- _ => apply negb_false_iff in H; rewrite ?H
           end;
    cbn in *; rewrite <- ?app_assoc; cbn;
    (split;
     [ try reflexivity; try (exfalso; arith)
     | first [ exists 0%nat; split; [now rewrite ?app_nil_r | now left]
             | exists 2%nat; split; [reflexivity | now left]
             | exists 3%nat; split; [reflexivity | now left]
             | exists 6%nat; split; [reflexivity | now right]
             | exists 6%nat; split; [reflexivity | now left] ] ]).
Qed.

(** X4: The autonomous constructor takes no ranging frequency: whether the
    start-up of an autonomous object halts on the frequency is decided by
    the default of the class declaration alone, whatever was passed. *)
Theorem autonomous_object_frequency raw dflt lpnPin ms addr res order w log :
  let a := VL53L5cxAutonomous_new raw dflt lpnPin ms addr res order in
  _integration_time_msec a = ms /\
  frequency_fatal (fst (run_autonomous_begin uld a w log))
  = (dflt <? 1) || (dflt >? 15).
Proof.
  cbv zeta. split; [reflexivity|].
  unfold run_autonomous_begin, VL53L5cxAutonomous_new.
  cbn [super _integration_time_msec].
  set (s := mkSys (VL53L5cx_new raw lpnPin addr res order dflt) w log).
  change ((dflt <? 1) || (dflt >? 15))
    with ((_ranging_frequency (this s) <? 1)
          || (_ranging_frequency (this s) >? 15)).
  rewrite <- (init_frequency_gate X W MC uld s).
  unfold VL53L5cxAutonomous_begin, bind.
  destruct (init uld s) as [[[]|f a] s1]; cbn [fst frequency_fatal halted_with];
    try reflexivity; run; reflexivity.
Qed.

End Initialisation.

Section SessionProperties.

Variables X W MC : Type.
Variable uld : ULD X W MC.
Implicit Types s : Sys X W.

Lemma session_cons m rest s :
  session uld (m :: rest) s =
  match invoke uld m s with
  | (Ok _, s1) => session uld rest s1
  | (Fatal f a, s1) => (Fatal f a, s1)
  end.
Proof. reflexivity. Qed.

Lemma same_configuration_trans (o1 o2 o3 : VL53L5cx X) :
  same_configuration o1 o2 -> same_configuration o2 o3 ->
  same_configuration o1 o3.
Proof.
  unfold same_configuration. intros (?&?&?&?) (?&?&?&?).
  repeat split; congruence.
Qed.

Lemma call_agrees_same (o1 o2 : VL53L5cx X) c :
  same_configuration o1 o2 -> call_agrees o1 c -> call_agrees o2 c.
Proof.
  unfold same_configuration. intros (?&?&?&?).
  destruct c; cbn; congruence.
Qed.

Lemma invoke_configuration m s :
  same_configuration (this (snd (invoke uld m s))) (this s).
Proof.
  unfold same_configuration.
  destruct m; cbn [invoke]; run; cbn; repeat split.
Qed.

Lemma invoke_results m s :
  is_poll m = false ->
  _results (this (snd (invoke uld m s))) = _results (this s).
Proof.
  destruct m; cbn [is_poll invoke]; try discriminate; intros _;
    run; reflexivity.
Qed.

Lemma invoke_unchecked m s :
  unchecked m = true -> fst (invoke uld m s) = Ok tt.
Proof.
  destruct m; cbn [unchecked invoke]; try discriminate; intros _;
    run; reflexivity.
Qed.

Lemma invoke_well_formed_halt m s :
  well_formed_halt (fst (invoke uld m s))
  = negb (frequency_fatal (fst (invoke uld m s))).
Proof. destruct m; cbn [invoke]; run; reflexivity. Qed.

Lemma invoke_dropped_status e m s :
  invoke (with_dropped_status uld e) m s = invoke uld m s.
Proof.
  destruct m; cbn [invoke]; unfold with_dropped_status;
    unfold_method; cbn; repeat (answer; cbn); reflexivity.
Qed.

(** X6: No method assigns the pin, the resolution, the target order or the
    ranging frequency: after any session they are what the constructor
    stored. *)
Theorem session_keeps_configuration ms s :
  same_configuration (this (snd (session uld ms s))) (this s).
Proof.
  revert s. induction ms as [|m rest IH]; intros s.
  - cbn. unfold same_configuration. repeat split.
  - rewrite session_cons.
    pose proof (invoke_configuration m s) as Hm.
    destruct (invoke uld m s) as [[[]|f a] s1]; cbn [snd] in *.
    + eapply same_configuration_trans; [apply IH | exact Hm].
    + exact Hm.
Qed.

(** X8: The frame buffer is written by polls only: a session without a poll
    leaves it as it was, whatever else was called and wherever it halted. *)
Theorem session_without_polls_keeps_frame ms s :
  existsb is_poll ms = false ->
  _results (this (snd (session uld ms s))) = _results (this s).
Proof.
  revert s. induction ms as [|m rest IH]; intros s H; [reflexivity|].
  cbn [existsb] in H. apply orb_false_iff in H as [Hm Hr].
  rewrite session_cons.
  pose proof (invoke_results m s Hm) as E.
  destruct (invoke uld m s) as [[[]|f a] s1]; cbn [snd] in *.
  - now rewrite IH.
  - exact E.
Qed.

(** X9: A session of polls, stops and calibration-data calls never halts,
    whatever the driver answers. *)
Theorem unchecked_session_never_halts ms s :
  forallb unchecked ms = true -> fst (session uld ms s) = Ok tt.
Proof.
  revert s. induction ms as [|m rest IH]; intros s H; [reflexivity|].
  cbn [forallb] in H. apply andb_true_iff in H as [Hm Hr].
  rewrite session_cons.
  pose proof (invoke_unchecked m s Hm) as E.
  destruct (invoke uld m s) as [[[]|f a] s1]; cbn [fst] in *.
  - now apply IH.
  - discriminate E.
Qed.

(** X11: The frequency diagnostic has two conversions, a string and a number,
    and is given one argument, the bound (the label is not passed on);
    every other halt passes as many arguments as its format converts. *)
Theorem session_halt_arguments ms s :
  well_formed_halt (fst (session uld ms s))
  = negb (frequency_fatal (fst (session uld ms s))).
Proof.
  revert s. induction ms as [|m rest IH]; intros s; [reflexivity|].
  rewrite session_cons.
  pose proof (invoke_well_formed_halt m s) as E.
  destruct (invoke uld m s) as [[[]|f a] s1]; cbn [fst] in *.
  - apply IH.
  - exact E.
Qed.

(** X12: Five more calls have their status dropped: setting the resolution and
    the target order, both calls of a poll, and the read of the calibration
    data.  Replacing these statuses by any others changes no session, no
    answer of a poll and no calibration data handed back. *)
Theorem dropped_status_changes_nothing e ms data s :
  session (with_dropped_status uld e) ms s = session uld ms s /\
  isReady (with_dropped_status uld e) s = isReady uld s /\
  getXtalkCalibrationData (with_dropped_status uld e) data s
  = getXtalkCalibrationData uld data s.
Proof.
  split.
  - revert s. induction ms as [|m rest IH]; intros s; [reflexivity|].
    cbn [session]. unfold bind. rewrite invoke_dropped_status.
    destruct (invoke uld m s) as [[[]|f a] s1]; [apply IH | reflexivity].
  - unfold with_dropped_status.
    split; unfold_method; cbn; repeat (answer; cbn); reflexivity.
Qed.

End SessionProperties.

Section RecordedSessions.

Variables X W MC : Type.
Variable uld : ULD X W MC.
Implicit Types s : Sys X (W * list (Call * Z)).

Ltac run_recorded :=
  unfold recording, recorded; unfold_method; cbn; repeat (answer; cbn).

(** The record changes nothing: a method does with the recording driver
    what it does with the driver itself. *)
Lemma recording_is_transparent m s :
  let r' := invoke (recording uld) m s in
  let r := invoke uld m (mkSys (this s) (fst (hw s)) (calls s)) in
  fst r' = fst r /\ this (snd r') = this (snd r) /\
  fst (hw (snd r')) = hw (snd r) /\ calls (snd r') = calls (snd r).
Proof.
  cbv zeta. destruct m; cbn [invoke]; run_recorded; repeat split.
Qed.

Lemma invoke_received m s :
  exists l,
    snd (hw (snd (invoke (recording uld) m s))) = snd (hw s) ++ l /\
    calls (snd (invoke (recording uld) m s)) = calls s ++ map fst l /\
    Forall (fun cz => call_agrees (this s) (fst cz)) l.
Proof.
  destruct m; cbn [invoke]; run_recorded; rewrite <- ?app_assoc; cbn;
    first [ exists []; repeat split; [now rewrite app_nil_r
                                     | now rewrite app_nil_r | constructor]
          | eexists; split; [reflexivity | split; [reflexivity|]];
            repeat constructor ].
Qed.

Lemma invoke_halt_explained m s :
  halt_explained (fst (invoke (recording uld) m s))
                 (snd (hw (snd (invoke (recording uld) m s)))) = true.
Proof.
  destruct m; cbn [invoke]; run_recorded; try reflexivity;
    rewrite ?rev_unit; cbn; rewrite ?Z.eqb_refl; cbn;
    try reflexivity; try assumption; arith.
Qed.

(** X7: Whatever a session tells the driver of the configuration is what
    the object holds.  Run against a driver that records what it receives,
    any session adds the same calls to the record of the driver and, by
    their labels, to the log; and in what the driver received every reset
    is of the pin of the object, every resolution set and every resolution
    of a motion indicator is the resolution of the object, and every target
    order set is its target order. *)
Theorem session_tells_configuration ms s :
  exists l,
    snd (hw (snd (session (recording uld) ms s))) = snd (hw s) ++ l /\
    calls (snd (session (recording uld) ms s)) = calls s ++ map fst l /\
    Forall (fun cz => call_agrees (this s) (fst cz)) l.
Proof.
  revert s. induction ms as [|m rest IH]; intros s.
  - exists []. cbn. rewrite !app_nil_r. repeat split. constructor.
  - cbn [session]. unfold bind at 1 2.
    destruct (invoke_received m s) as (l1 & R1 & E1 & F1).
    pose proof (invoke_configuration
                  X (W * list (Call * Z)) MC (recording uld) m s) as Hm.
    destruct (invoke (recording uld) m s) as [[[]|f a] s1]; cbn [snd] in *.
    + destruct (IH s1) as (l2 & R2 & E2 & F2).
      exists (l1 ++ l2). repeat split.
      * now rewrite R2, R1, app_assoc.
      * now rewrite E2, E1, map_app, app_assoc.
      * apply Forall_app. split; [exact F1|].
        eapply Forall_impl; [|exact F2].
        intros c. now apply call_agrees_same.
    + now exists l1.
Qed.

(** X10: Every halt of a session is one of the diagnostics of the facade
    with the arguments the code gives it.  Run against a driver that
    records what it answers, a halt on a status comes right after the call
    it names and carries the status the driver answered to that call,
    which is not zero; the frequency halt carries the bound 60 or 15; a
    range halt carries the name and the bounds of one of the three ranges
    of [calibrateXtalk], and [calibrateXtalk] reports the first of its
    three values that is out of range; the halts on an absent sensor, on a
    failed loading and of the window filters carry nothing. *)
Theorem session_halts_are_known ms s r sm d (s0 : Sys X W) :
  halt_explained (fst (session (recording uld) ms s))
                 (snd (hw (snd (session (recording uld) ms s)))) = true /\
  (if spec_xtalk_invalid r sm d
   then fst (calibrateXtalk uld r sm d s0) = Fatal msg_range (range_report r sm d)
   else range_fatal (fst (calibrateXtalk uld r sm d s0)) = false).
Proof.
  split.
  - revert s. induction ms as [|m rest IH]; intros s; [reflexivity|].
    cbn [session]. unfold bind at 1 2.
    pose proof (invoke_halt_explained m s) as E.
    destruct (invoke (recording uld) m s) as [[[]|f a] s1]; cbn [fst snd] in *.
    + apply IH.
    + exact E.
  - unfold spec_xtalk_invalid, range_report.
    run; cbn; try reflexivity; exfalso; arith.
Qed.

End RecordedSessions.

Section MoreProperties.

Variables X W MC : Type.
Variable NB : Z.
Variable uld : ULD X W MC.
Implicit Types (s : Sys X W) (o : VL53L5cx X).

(** X5: The ranging frequency is checked and never used again: it is not sent
    to the driver.  Two objects that differ in a frequency that passes the
    checks behave alike under every method: same outcome, same calls, same
    sensor, same handle and frame. *)
Theorem frequency_never_reaches_driver m o w log f1 f2 :
  1 <= f1 <= 15 -> 1 <= f2 <= 15 ->
  let r1 := invoke uld m (mkSys (with_frequency f1 o) w log) in
  let r2 := invoke uld m (mkSys (with_frequency f2 o) w log) in
  fst r1 = fst r2 /\
  hw (snd r1) = hw (snd r2) /\
  calls (snd r1) = calls (snd r2) /\
  this (snd r1) = with_frequency f1 (this (snd r2)).
Proof.
  intros H1 H2.
  assert (E1 : (f1 <? 1) || (f1 >? 60) = false) by arith.
  assert (E2 : (f1 <? 1) || (f1 >? 15) = false) by arith.
  assert (E3 : (f2 <? 1) || (f2 >? 60) = false) by arith.
  assert (E4 : (f2 <? 1) || (f2 >? 15) = false) by arith.
  cbv zeta. unfold with_frequency.
  destruct m; cbn [invoke]; unfold_method; cbn;
    repeat (first [rewrite E1 | rewrite E2 | rewrite E3 | rewrite E4 | answer];
            cbn);
    repeat split.
Qed.

(** X13: With a bound of zero the window is not looked at: the motion indicator
    is created, no filter runs and nothing is pushed, whatever the other
    bound is. *)
Theorem addMotionIndicator_zero_bound dmin dmax s :
  dmin = 0 \/ dmax = 0 ->
  let r := addMotionIndicator uld dmin dmax s in
  calls (snd r) =
  calls s ++
  [call_motion_indicator_init (vl_resolution_of (_resolution (this s)))] /\
  window_fatal (fst r) = false /\
  is_fatal (fst r) = negb (motion_init_status uld s =? 0).
Proof.
  unfold motion_init_status. cbv zeta.
  run; cbn in *; intros; repeat split; try reflexivity;
    try (symmetry; assumption); exfalso; arith.
Qed.

(** X14: With both bounds given and the motion indicator created, the filters
    halt exactly when the minimum is below 400, the maximum below the
    minimum (an equal maximum passes) or the window wider than 1500, with
    the creation the only call; otherwise the window is pushed as given, and
    the method halts only on a status of that push that is not zero. *)
Theorem addMotionIndicator_window_rule dmin dmax s :
  0 < dmin -> 0 < dmax -> motion_init_status uld s = 0 ->
  let r := addMotionIndicator uld dmin dmax s in
  let created :=
    call_motion_indicator_init (vl_resolution_of (_resolution (this s))) in
  if window_filtered dmin dmax
  then window_fatal (fst r) = true /\ calls (snd r) = calls s ++ [created]
  else calls (snd r) =
       calls s ++
       [created; call_motion_indicator_set_distance_motion dmin dmax] /\
       is_fatal (fst r) = negb (motion_set_status uld dmin dmax s =? 0).
Proof.
  unfold window_filtered, motion_init_status, motion_set_status. cbv zeta.
  run; cbn in *; intros; subst; rewrite <- ?app_assoc; cbn;
    try (split; reflexivity); try (split; [reflexivity|symmetry; assumption]);
    try discriminate; exfalso; arith.
Qed.

Lemma isReady_log s :
  exists b, fst (isReady uld s) = Ok b /\
            calls (snd (isReady uld s)) = calls s ++ poll_log [b].
Proof.
  run; cbn; rewrite <- ?app_assoc; eexists; split; reflexivity.
Qed.

Lemma isReady_false s :
  fst (isReady uld s) = Ok false ->
  _results (this (snd (isReady uld s))) = _results (this s).
Proof. run; cbn; intros; try reflexivity; discriminate. Qed.

Lemma polls_step k s :
  polls uld (S k) s =
  match isReady uld s with
  | (Ok b, s1) =>
      match polls uld k s1 with
      | (Ok bs, s2) => (Ok (b :: bs), s2)
      | (Fatal f a, s2) => (Fatal f a, s2)
      end
  | (Fatal f a, s1) => (Fatal f a, s1)
  end.
Proof. reflexivity. Qed.

(** X15: Any number of polls in a row never halts; each issues the data-ready
    check, and the fetch of a frame exactly when it returns true. *)
Theorem polls_log n s :
  exists bs, fst (polls uld n s) = Ok bs /\
             List.length bs = n /\
             calls (snd (polls uld n s)) = calls s ++ poll_log bs.
Proof.
  revert s. induction n as [|k IH]; intros s.
  - exists []. cbn. now rewrite app_nil_r.
  - rewrite polls_step.
    destruct (isReady_log s) as (b & Eb & Lb).
    destruct (isReady uld s) as [o1 s1]; cbn [fst snd] in *. subst o1.
    destruct (IH s1) as (bs & Ebs & Len & Lbs).
    destruct (polls uld k s1) as [o2 s2]; cbn [fst snd] in *. subst o2.
    exists (b :: bs). repeat split.
    + cbn. now rewrite Len.
    + cbn [snd]. rewrite Lbs, Lb, <- app_assoc. f_equal.
      unfold poll_log. cbn [flat_map]. now rewrite app_nil_r.
Qed.

(** X16: Polls that all returned false leave the frame buffer, and so every
    answer of an accessor of the frame, as they were. *)
Theorem idle_polls_keep_frame n s bs zone target :
  fst (polls uld n s) = Ok bs -> existsb (fun b => b) bs = false ->
  _results (this (snd (polls uld n s))) = _results (this s) /\
  getDistance NB (this (snd (polls uld n s))) zone target
  = getDistance NB (this s) zone target.
Proof.
  intros E H.
  assert (R : _results (this (snd (polls uld n s))) = _results (this s)).
  { revert s bs E H. induction n as [|k IH]; intros s bs E H; [reflexivity|].
    rewrite polls_step in *.
    pose proof (isReady_false s) as F.
    destruct (isReady uld s) as [[b|f a] s1]; cbn [fst snd] in *;
      [|discriminate E].
    pose proof (IH s1) as IH1.
    destruct (polls uld k s1) as [[bs1|f a] s2]; cbn [fst snd] in *;
      [|discriminate E].
    injection E as <-. cbn [existsb] in H.
    apply orb_false_iff in H as [-> H].
    rewrite (IH1 bs1 eq_refl H). now apply F. }
  split; [exact R|].
  unfold getDistance. now rewrite R.
Qed.

(** X17: No accessor answers 256 or more: whatever the driver stored, a caller
    gets a byte. *)
Theorem accessor_answers_are_bytes o zone target v :
  In (Some v)
     [Some (getStreamCount o);
      getTargetStatus NB o zone target; getDistance NB o zone target;
      getSignalPerSpad NB o zone target; getRangeSigma NB o zone target;
      getNbTargetDetected o zone; getAmbientPerSpad o zone;
      getNbSpadsEnabled o zone] ->
  is_uint8 v.
Proof.
  unfold getStreamCount, getTargetStatus, getDistance, getSignalPerSpad,
    getRangeSigma, getNbTargetDetected, getAmbientPerSpad, getNbSpadsEnabled.
  intros H. cbn [In] in H.
  repeat (destruct H as [H|H]);
    try (injection H as <-; apply to_uint8_range);
    try (destruct (array_get _ _); cbn in H;
         [injection H as <-; apply to_uint8_range | discriminate H]).
  destruct H.
Qed.

(** X18: The indices are not checked against the grid or the targets of a zone:
    a read is inside the array exactly when the linear index is, and a
    target index past the last target of a zone reads the next zone. *)
Theorem target_index_unchecked o zone target :
  ((exists v, getDistance NB o zone target = Some v) <->
   0 <= NB * zone + target
   < Z.of_nat (List.length (distance_mm (_results o)))) /\
  getTargetStatus NB o zone (target + NB)
  = getTargetStatus NB o (zone + 1) target /\
  getDistance NB o zone (target + NB) = getDistance NB o (zone + 1) target /\
  getSignalPerSpad NB o zone (target + NB)
  = getSignalPerSpad NB o (zone + 1) target /\
  getRangeSigma NB o zone (target + NB) = getRangeSigma NB o (zone + 1) target.
Proof.
  assert (A : target_index NB zone (target + NB)
              = target_index NB (zone + 1) target)
    by (unfold target_index; lia).
  split.
  - unfold getDistance. fold (target_index NB zone target). split.
    + intros [v Hv]. unfold array_get in Hv.
      destruct (Z.ltb_spec (target_index NB zone target) 0);
        [discriminate Hv|].
      destruct (nth_error (distance_mm (_results o))
                          (Z.to_nat (target_index NB zone target))) eqn:E;
        [|discriminate Hv].
      assert (N : nth_error (distance_mm (_results o))
                            (Z.to_nat (target_index NB zone target)) <> None)
        by congruence.
      apply nth_error_Some in N. lia.
    + intros H.
      destruct (array_get_in_bounds (distance_mm (_results o))
                                    (target_index NB zone target) H) as [v Hv].
      exists (to_uint8 v). now rewrite Hv.
  - unfold getTargetStatus, getDistance, getSignalPerSpad, getRangeSigma.
    rewrite A. repeat split.
Qed.

End MoreProperties.

(** * On the bench *)

Example frequency_boundaries :
  map (fun s => frequency_fatal (fst (begin (bench_uld quiet) s)))
      [small_grid 0; small_grid 1; small_grid 15; small_grid 16;
       small_grid 60; small_grid 61;
       large_grid 0; large_grid 1; large_grid 15; large_grid 16]
  = [true; false; false; true; true; true; true; false; false; true].
Proof. reflexivity. Qed.

Example window_boundaries :
  map (fun w => window_fatal
                  (fst (addMotionIndicator (bench_uld quiet) (fst w) (snd w)
                                           (boot blank))))
      [(400, 401); (1000, 2500); (399, 500); (500, 499); (500, 2001);
       (500, 500)]
  = [false; false; true; true; true; false].
Proof. reflexivity. Qed.

Example window_pushed :
  calls (snd (addMotionIndicator (bench_uld quiet) 1000 2500 (boot blank)))
  = [call_motion_indicator_init VL53L5CX_RESOLUTION_4X4;
     call_motion_indicator_set_distance_motion 1000 2500].
Proof. reflexivity. Qed.

Example xtalk_boundaries :
  map (fun p => range_fatal
                  (fst (calibrateXtalk (bench_uld quiet) (fst (fst p))
                                       (snd (fst p)) (snd p) (boot blank))))
      [(0, 1, 600); (100, 1, 600); (1, 0, 600); (1, 17, 600); (1, 1, 599);
       (1, 1, 3001); (1, 1, 600); (99, 16, 3000); (1, 16, 600); (99, 1, 3000)]
  = [true; true; true; true; true; true; false; false; false; false].
Proof. reflexivity. Qed.

Example xtalk_delegated :
  calibrateXtalk (bench_uld quiet) 99 16 3000 (boot blank)
  = (Ok tt, mkSys blank tt [call_calibrate_xtalk 99 16 3000]).
Proof. reflexivity. Qed.

(** The driver fails the integration-time call with 255: the autonomous
    start-up goes on to start ranging, and ends well. *)
Example autonomous_10ms :
  let a := VL53L5cxAutonomous_new blank 15 5 10 41 RESOLUTION_8X8
                                  TARGET_ORDER_CLOSEST in
  fst (run_autonomous_begin (bench_uld grumpy) a tt []) = Ok tt /\
  calls (snd (run_autonomous_begin (bench_uld grumpy) a tt []))
  = [call_Reset_Sensor 5; call_is_alive; call_init;
     call_set_resolution VL53L5CX_RESOLUTION_8X8;
     call_set_target_order VL53L5CX_TARGET_ORDER_CLOSEST;
     call_set_ranging_mode VL53L5CX_RANGING_MODE_AUTONOMOUS;
     call_set_integration_time_ms 10; call_start_ranging].
Proof. split; reflexivity. Qed.

Example stop_with_failing_driver :
  stop (bench_uld grumpy) (boot blank)
  = (Ok tt, mkSys blank tt [call_stop_ranging]).
Proof. reflexivity. Qed.

(** An idle poll, then a poll that finds a frame. *)
Example two_polls :
  fst (isReady (bench_uld quiet) (boot blank)) = Ok false /\
  _results (this (snd (isReady (bench_uld quiet) (boot blank)))) = empty_frame /\
  fst (isReady (bench_uld delivering) (boot blank)) = Ok true /\
  _results (this (snd (isReady (bench_uld delivering) (boot blank))))
  = frame_300mm /\
  getStreamCount (this (snd (isReady (bench_uld delivering) (boot blank)))) = 1.
Proof. repeat split. Qed.



(** C10, refuted as stated: two objects with the same frame buffer and
    stream counts 0 and 7 in their handles answer 0 and 7. *)
Lemma stream_count_reads_handle :
  _results blank = _results (with_dev (mkConfiguration 0 7 tt) blank) /\
  getStreamCount blank = 0 /\
  getStreamCount (with_dev (mkConfiguration 0 7 tt) blank) = 7 /\
  ~ stream_count_reads_frame.
Proof.
  repeat split.
  intros H.
  specialize (H unit blank (with_dev (mkConfiguration 0 7 tt) blank) eq_refl).
  discriminate H.
Qed.

(** An object with a frame and stream count 0; one with the same frame,
    another bus address and stream count 7; one with an empty frame and
    stream count 0. *)
Lemma accessors_read_their_storage_witness :
  let o1 := framed in
  let o2 := with_dev (mkConfiguration 41 7 tt) framed in
  let o3 := blank in
  _results o1 = _results o2 /\
  streamcount (_dev o1) = streamcount (_dev o3) /\
  _results o1 <> _results o3 /\
  streamcount (_dev o1) <> streamcount (_dev o2) /\
  getDistance 1 o1 0 0 = getDistance 1 o2 0 0 /\
  getStreamCount o1 = getStreamCount o3.
Proof.
  cbv zeta.
  destruct (accessors_read_their_storage
              unit 1 framed (with_dev (mkConfiguration 41 7 tt) framed) blank
              0 0 eq_refl eq_refl) as [(_ & H & _) G].
  split; [reflexivity|]. split; [reflexivity|].
  split; [discriminate|]. split; [discriminate|].
  split; [exact H | exact G].
Defined.

(** The sensor does not answer: the start-up halts after the reset and the
    probe, and the driver is not loaded. *)
Example begin_with_absent_sensor :
  begin (bench_uld absent) (large_grid 15)
  = (Fatal msg_not_detected [],
     mkSys (this (large_grid 15)) tt [call_Reset_Sensor 5; call_is_alive]).
Proof. reflexivity. Qed.

Example conversions_of_the_formats :
  map conversions [msg_frequency; msg_range; msg_start; msg_not_detected]
  = [2; 3; 1; 0]%nat.
Proof. reflexivity. Qed.

(** A start-up, a window, a calibration and a stop over an object that
    holds a frame: the frame stays. *)
Lemma session_without_polls_keeps_frame_witness :
  let ms := [do_begin; do_addMotionIndicator 1000 2500;
             do_calibrateXtalk 50 4 1000; do_stop] in
  let s := boot (with_frequency 15 framed) in
  existsb is_poll ms = false /\
  _results (this (snd (session (bench_uld delivering) ms s))) = frame_300mm.
Proof.
  cbv zeta. split; [reflexivity|].
  apply (session_without_polls_keeps_frame
           unit unit unit (bench_uld delivering)
           [do_begin; do_addMotionIndicator 1000 2500;
            do_calibrateXtalk 50 4 1000; do_stop]
           (boot (with_frequency 15 framed))).
  reflexivity.
Defined.

(** Every call fails with 255, and the session ends well. *)
Lemma unchecked_session_never_halts_witness :
  let ms := [do_isReady; do_stop; do_getXtalkCalibrationData [1; 2];
             do_setXtalkCalibrationData [3]; do_isReady] in
  forallb unchecked ms = true /\
  fst (session (bench_uld failing) ms (boot blank)) = Ok tt.
Proof.
  cbv zeta. split; [reflexivity|].
  apply (unchecked_session_never_halts
           unit unit unit (bench_uld failing)
           [do_isReady; do_stop; do_getXtalkCalibrationData [1; 2];
            do_setXtalkCalibrationData [3]; do_isReady]
           (boot blank)).
  reflexivity.
Defined.

(** Frequencies 1 and 15 on the small grid: the same start-up. *)
Lemma frequency_never_reaches_driver_witness :
  1 <= 1 <= 15 /\ 1 <= 15 <= 15 /\
  fst (invoke (bench_uld quiet) do_begin (mkSys (with_frequency 1 blank) tt []))
  = fst (invoke (bench_uld quiet) do_begin
                (mkSys (with_frequency 15 blank) tt [])) /\
  calls (snd (invoke (bench_uld quiet) do_begin
                     (mkSys (with_frequency 1 blank) tt [])))
  = calls (snd (invoke (bench_uld quiet) do_begin
                       (mkSys (with_frequency 15 blank) tt []))).
Proof.
  split; [lia|]. split; [lia|].
  destruct (frequency_never_reaches_driver
              unit unit unit (bench_uld quiet) do_begin blank tt [] 1 15
              ltac:(lia) ltac:(lia)) as (Ho & _ & Hc & _).
  split; [exact Ho | exact Hc].
Defined.

(** No minimum and a maximum of 5000 mm: nothing is checked or pushed. *)
Lemma addMotionIndicator_zero_bound_witness :
  (0 = 0 \/ 5000 = 0) /\
  calls (snd (addMotionIndicator (bench_uld quiet) 0 5000 (boot blank)))
  = [call_motion_indicator_init VL53L5CX_RESOLUTION_4X4] /\
  window_fatal (fst (addMotionIndicator (bench_uld quiet) 0 5000 (boot blank)))
  = false.
Proof.
  split; [now left|].
  destruct (addMotionIndicator_zero_bound
              unit unit unit (bench_uld quiet) 0 5000 (boot blank)
              (or_introl eq_refl)) as (Hc & Hw & _).
  split; [exact Hc | exact Hw].
Defined.

(** The window (500, 500) passes the filters and is pushed. *)
Lemma addMotionIndicator_window_rule_witness :
  0 < 500 /\ motion_init_status (bench_uld quiet) (boot blank) = 0 /\
  calls (snd (addMotionIndicator (bench_uld quiet) 500 500 (boot blank)))
  = [call_motion_indicator_init VL53L5CX_RESOLUTION_4X4;
     call_motion_indicator_set_distance_motion 500 500].
Proof.
  split; [lia|]. split; [reflexivity|].
  pose proof (addMotionIndicator_window_rule
                unit unit unit (bench_uld quiet) 500 500 (boot blank)
                ltac:(lia) ltac:(lia) eq_refl) as H.
  cbv zeta in H.
  change (window_filtered 500 500) with false in H.
  exact (proj1 H).
Defined.

(** Three idle polls over an object that holds a frame. *)
Lemma idle_polls_keep_frame_witness :
  fst (polls (bench_uld quiet) 3 (boot framed)) = Ok [false; false; false] /\
  existsb (fun b : bool => b) [false; false; false] = false /\
  _results (this (snd (polls (bench_uld quiet) 3 (boot framed)))) = frame_300mm /\
  getDistance 1 (this (snd (polls (bench_uld quiet) 3 (boot framed)))) 0 0
  = Some 44.
Proof.
  split; [reflexivity|]. split; [reflexivity|].
  destruct (idle_polls_keep_frame
              unit unit unit 1 (bench_uld quiet) 3 (boot framed)
              [false; false; false] 0 0 eq_refl eq_refl) as [Hr Hd].
  split; [exact Hr | exact Hd].
Defined.

(** The distance of 300 mm is answered as the byte 44. *)
Lemma accessor_answers_are_bytes_witness :
  getDistance 1 framed 0 0 = Some 44 /\ is_uint8 44.
Proof.
  split; [reflexivity|].
  apply (accessor_answers_are_bytes unit 1 framed 0 0 44).
  cbn [In]. right. right. left. reflexivity.
Defined.

(** The stored 300 is answered modulo 256. *)
Lemma getDistance_in_bounds_witness :
  array_get (distance_mm (_results framed)) (target_index 1 0 0) = Some 300 /\
  getDistance 1 framed 0 0 = Some (300 mod 256) /\
  ~ is_uint8 300.
Proof.
  split; [reflexivity|].
  destruct (getDistance_in_bounds unit 1 framed 0 0 300 eq_refl) as [H _].
  split; [exact H|]. unfold is_uint8. lia.
Defined.
